(** * Learning_AgenticAI: the deep-research agents

    A shallow embedding of the three research-agent programs of the
    repository,

      - src/DeepResearchAgent/DeepSearchAgent.py   (module [DeepSearchAgent])
      - src/DeepResearchAgent/main.py              (module [MainAgent])
      - src/DeepResearchAgent/newAgent.py          (module [NewAgent])

    and the properties of their start-up check, search tool and chat
    loop.

    What the Python code takes from outside is a parameter here: the
    process environment, the lines typed on standard input, the search
    backend behind [TavilyClient.search], and the agent runner.
    Everything the code itself decides (the retry loop, the handlers, the
    exit test, the key check) is a definition.  The agents of the three
    files are [Agent] objects, an instruction text and a list of tools
    handed to a language model: which tools a turn calls, how often and
    in which order is decided by the model inside [runner.run], not by
    code of the repository, and is part of the runner here. *)

From Stdlib Require Import ZArith NArith String Ascii List Bool Lia DecimalString DecimalPos.
From stdpp Require Import base option list strings gmap.

Local Open Scope string_scope.
Local Open Scope list_scope.

#[local] Set Warnings "-register-all".

(** ** Python values and library calls the programs use *)

Module Py.

(** Exceptions that are instances of Python's [Exception]: the ones an
    [except Exception] clause catches.  [TimeoutError] is
    [asyncio.TimeoutError]; [OtherError] stands for any further subclass
    (network errors, API errors, ...), with its class name and message. *)
Inductive exn : Type :=
| ValueError (msg : string)
| TypeError (msg : string)
| TimeoutError
| OtherError (cls msg : string).

(** [str(e)] *)
Definition exn_str (e : exn) : string :=
  match e with
  | ValueError msg | TypeError msg | OtherError _ msg => msg
  | TimeoutError => ""
  end.

(** The result of a call that may raise. *)
Definition result (A : Type) : Type := A + exn.

(** An awaitable, seen from the caller: how long it runs (milliseconds)
    and what it delivers when left to finish. *)
Record awaitable (A : Type) : Type := Awaitable {
  duration : N;
  outcome : result A
}.
Arguments Awaitable {A} _ _.
Arguments duration {A} _.
Arguments outcome {A} _.

(** [asyncio.wait_for(aw, timeout)]: the awaitable's own outcome when it
    finishes within the budget, [TimeoutError] when it runs longer. *)
Definition wait_for {A} (aw : awaitable A) (timeout : N) : result A :=
  if (timeout <? duration aw)%N then inr TimeoutError else outcome aw.

(** [await aw], without a budget. *)
Definition await {A} (aw : awaitable A) : result A := outcome aw.

(** A blocking call, seen from the caller, has the same two observables:
    how long it runs and what it returns or raises.  The caller sits
    through all of it; nothing cuts it short. *)
Definition blocking (A : Type) : Type := awaitable A.

(** *** Strings *)

Definition is_upper (c : ascii) : bool :=
  let n := N_of_ascii c in ((65 <=? n) && (n <=? 90))%N.

Definition lower_char (c : ascii) : ascii :=
  if is_upper c then ascii_of_N (N_of_ascii c + 32) else c.

(** [s.lower()].  A string is its sequence of bytes; only the letters A-Z
    have a lower-case form among the bytes below 128.  (No character
    outside ASCII lower-cases to one of the letters of the word the chat
    loops compare with, so the comparison is the same on bytes.) *)
Fixpoint lower (s : string) : string :=
  match s with
  | EmptyString => EmptyString
  | String c s' => String (lower_char c) (lower s')
  end.

Fixpoint starts_with (p s : string) : bool :=
  match p, s with
  | EmptyString, _ => true
  | String a p', String b s' => Ascii.eqb a b && starts_with p' s'
  | String _ _, EmptyString => false
  end.

(** Truth value of [os.getenv(k)]: [None] and the empty string are
    false, so [not v] holds for both. *)
Definition truthy (v : option string) : bool :=
  match v with
  | None => false
  | Some s => negb (String.eqb s "")
  end.

(** *** Values that travel through [json.dumps] *)

(** A response of the search backend is a Python object: JSON-like data
    (dictionaries keep their insertion order, keys are strings), or
    something [json] cannot serialise ([PyObject], with its type name).
    Characters of a [PyStr] are code points below 256.  Floating-point
    numbers are left out. *)
Inductive pyval : Type :=
| PyNone
| PyBool (b : bool)
| PyInt (z : Z)
| PyStr (s : string)
| PyList (l : list pyval)
| PyDict (d : list (string * pyval))
| PyObject (type_name : string).

(** [asyncio.wait_for(v, timeout)] where [v] is one of these values and
    not an awaitable: the call raises [TypeError] before it waits for
    anything. *)
Definition wait_for_data (v : pyval) (timeout : N) : result pyval :=
  inr (TypeError "An asyncio.Future, a coroutine or an awaitable is required").

Definition dquote : ascii := "034"%char.
Definition backslash : ascii := "092"%char.

Definition hex_digit (n : N) : ascii :=
  if (n <? 10)%N then ascii_of_N (48 + n) else ascii_of_N (87 + n).

(** One character inside a JSON string, [ensure_ascii=True]: the quote
    and the backslash are escaped, the named control characters have
    their short form, every other character outside space..tilde
    becomes a [\u00XX] escape. *)
Definition escape_char (c : ascii) : string :=
  let n := N_of_ascii c in
  if Ascii.eqb c dquote then String backslash (String dquote "")
  else if Ascii.eqb c backslash then String backslash (String backslash "")
  else if (n =? 10)%N then String backslash "n"
  else if (n =? 13)%N then String backslash "r"
  else if (n =? 9)%N then String backslash "t"
  else if (n =? 8)%N then String backslash "b"
  else if (n =? 12)%N then String backslash "f"
  else if ((32 <=? n) && (n <=? 126))%N then String c ""
  else String backslash
         ("u00" +:+ String (hex_digit (n / 16)) (String (hex_digit (n mod 16)) "")).

Fixpoint escape (s : string) : string :=
  match s with
  | EmptyString => EmptyString
  | String c s' => escape_char c +:+ escape s'
  end.

Definition json_string (s : string) : string :=
  String dquote (escape s +:+ String dquote "").

Definition json_int (z : Z) : string := NilZero.string_of_int (Z.to_int z).

(** Items joined by [", "], the default item separator. *)
Fixpoint join_items (items : list string) : string :=
  match items with
  | [] => ""
  | [x] => x
  | x :: rest => x +:+ ", " +:+ join_items rest
  end.

Fixpoint serializable (v : pyval) : bool :=
  match v with
  | PyNone | PyBool _ | PyInt _ | PyStr _ => true
  | PyList l => forallb serializable l
  | PyDict d =>
      (fix fields (d : list (string * pyval)) : bool :=
         match d with
         | [] => true
         | (_, x) :: d' => serializable x && fields d'
         end) d
  | PyObject _ => false
  end.

(** The text [json.dumps] writes for a serialisable value (default
    separators [", "] and [": "]). *)
Fixpoint json_text (v : pyval) : string :=
  match v with
  | PyNone => "null"
  | PyBool true => "true"
  | PyBool false => "false"
  | PyInt z => json_int z
  | PyStr s => json_string s
  | PyList l => "[" +:+ join_items (map json_text l) +:+ "]"
  | PyDict d =>
      "{" +:+
      join_items
        ((fix fields (d : list (string * pyval)) : list string :=
            match d with
            | [] => []
            | (k, x) :: d' => (json_string k +:+ ": " +:+ json_text x) :: fields d'
            end) d)
      +:+ "}"
  | PyObject _ => ""
  end.

(** [json.dumps(v)]: raises [TypeError] on an object it cannot
    serialise. *)
Definition json_dumps (v : pyval) : result string :=
  if serializable v then inl (json_text v)
  else inr (TypeError "Object is not JSON serializable").

End Py.


Import Py.

(** ** What the programs do that can be observed *)

(** Console and runner activity of a chat loop, in program order. *)
Inductive event : Type :=
| Prompt (text : string)       (* [input(text)] wrote its prompt and read a line *)
| Print (line : string)        (* [print(line)] *)
| RunnerRun (input : string)   (* [runner.run(starting_agent=QueryAgent, input=..., session=session)] *)
| ClearSession.                (* [await session.clear_session()] ran *)

(** How a chat loop stops. *)
Inductive ending : Type :=
| Exited                       (* the [break] of the exit branch *)
| InputClosed                  (* [input] raised [EOFError]: no line left to read *)
| Uncaught (e : exn).          (* an exception of a turn left [chat_loop] *)

(** The session store holds the items of the conversation so far. *)
Definition session : Type := list string.

(** [runner.run]: from the user's line and the session, an awaitable for
    the final output, and the session the run leaves behind (also when it
    is abandoned or fails). *)
Definition runner : Type := string -> session -> awaitable string * session.

Record console : Type := Console {
  events : list event;
  store : session
}.

Definition log (c : console) (es : list event) : console :=
  Console (events c ++ es) (store c).

(** Number of turns handed to the runner. *)
Definition turns (es : list event) : nat :=
  length (List.filter (fun e => match e with RunnerRun _ => true | _ => false end) es).

(** Lines printed with the [Agent: ] prefix. *)
Definition agent_lines (es : list event) : list string :=
  omap (fun e => match e with
                 | Print l => if starts_with "Agent: " l then Some l else None
                 | _ => None
                 end) es.

(** The process environment, [os.environ], and the [.env] file
    [load_dotenv()] reads: variables already set win over the file. *)
Definition load_dotenv (dotenv env : gmap string string) : gmap string string :=
  env ∪ dotenv.

(** ** src/DeepResearchAgent/DeepSearchAgent.py *)

Module DeepSearchAgent.

(** *** Lines 9-16: configuration *)

Record config : Type := Config {
  GEMINI_API_KEY : string;
  TAVILY_API_KEY : string;
  environ : gmap string string
}.

Definition BASE_URL : string :=
  "https://generativelanguage.googleapis.com/v1beta/openai/".

(** The module body up to the key check.  [inr] is the exception that
    ends the import, and with it the process. *)
Definition startup (dotenv env0 : gmap string string) : result config :=
  let env := load_dotenv dotenv env0 in
  let env := <["OPENAI_API_KEY" := default "" (env !! "OPENAI_API_KEY")]> env in
  let gemini := env !! "GEMINI_API_KEY" in
  let tavily := env !! "TAVILY_API_KEY" in
  if negb (truthy gemini) || negb (truthy tavily)
  then inr (ValueError "API KEY MISSING")
  else inl (Config (default "" gemini) (default "" tavily) env).

(** *** Lines 22-48: the search tool *)

(** What the tool does, in program order. *)
Inductive action : Type :=
| Attempt (query : string) (timeout : N)
    (* [asyncio.wait_for(tavily_client.search(query, max_results=5), timeout)] *)
| Sleep (ms : N).                         (* [asyncio.sleep] *)

(** A step of the tool: given the number of backend calls made before it,
    its value, the number of backend calls made after it, and the actions
    it took. *)
Record ran (A : Type) : Type := Ran {
  value : A;
  calls : nat;
  actions : list action
}.
Arguments Ran {A} _ _ _.
Arguments value {A} _.
Arguments calls {A} _.
Arguments actions {A} _.

Definition M (A : Type) : Type := nat -> ran A.

#[global] Instance M_ret : MRet M := fun A a n => Ran a n [].
#[global] Instance M_bind : MBind M :=
  fun A B k m n =>
    let r1 := m n in
    let r2 := k (value r1) (calls r1) in
    Ran (value r2) (calls r2) (actions r1 ++ actions r2).

Definition emit (a : action) : M unit := fun n => Ran tt n [a].

Definition mocked_data : pyval :=
  PyDict [
    ("results", PyList [
      PyDict [("url", PyStr "https://www.consumerreports.org");
              ("content", PyStr "Hybrids save on fuel but EVs save more long-term with $790/year fuel savings and 50% lower maintenance costs.")];
      PyDict [("url", PyStr "https://www.edmunds.com");
              ("content", PyStr "EVs offer instant acceleration, 250+ mile range; gas cars refuel faster, better for long trips.")];
      PyDict [("url", PyStr "https://ev-lectron.com");
              ("content", PyStr "EVs cost $59,205 vs. gas cars at $48,699. Battery production has emissions, but EVs are cleaner with renewable grids.")];
      PyDict [("url", PyStr "https://climate.mit.edu");
              ("content", PyStr "EVs have 40-60% lower lifecycle emissions, equivalent to 88 mpg.")];
      PyDict [("url", PyStr "https://www.epa.gov");
              ("content", PyStr "Over 61,000 EV charging stations in 2025 vs. widespread gas stations.")]
    ])
  ].

Definition search_failed_text : string := "Search failed: Network unreachable".

(** Which [return] statement of [tavily_search] produced the value. *)
Inductive search_return : Type :=
| Response (text : string)    (* line 33, [return json.dumps(response)] *)
| Fallback (text : string)    (* line 46, [return json.dumps(mocked_data)] *)
| Sentinel (text : string).   (* line 48, after the loop *)

Definition returned (r : search_return) : string :=
  match r with Response s | Fallback s | Sentinel s => s end.

(** The search backend: what the [n]-th call of
    [tavily_client.search(query, max_results=5)] of a run does.
    [TavilyClient.search] is the synchronous method of the client (main.py
    and newAgent.py pass its result to [str]): a blocking call that
    returns the response or raises.  Building the client is part of the
    call. *)
Definition search_backend : Type := nat -> string -> blocking pyval.

Section Tool.

Variable backend : search_backend.

(** Lines 28-33, the body of the [try]: [inl] is the value of
    [json.dumps(response)], [inr] the exception raised on the way.  The
    argument of [asyncio.wait_for] is evaluated first: the search call
    runs to its end, and what [wait_for] is given is the response
    itself. *)
Definition try_search (query : string) : M (result string) :=
  fun n =>
    Ran (match outcome (backend n query) with
         | inl found =>
             match wait_for_data found 10000 with
             | inl response => json_dumps response
             | inr e => inr e
             end
         | inr e => inr e
         end)
        (S n) [Attempt query 10000].

(** Lines 26-48: the loop over [range], then the statement after it. *)
Fixpoint search_loop (range : list nat) (query : string)
  : M (result search_return) :=
  match range with
  | [] => mret (inl (Sentinel search_failed_text))
  | attempt :: range' =>
      r ← try_search query;
      match r with
      | inl text => mret (inl (Response text))
      | inr _ =>
          if Nat.eqb attempt 2
          then mret (match json_dumps mocked_data with
                     | inl text => inl (Fallback text)
                     | inr e => inr e
                     end)
          else emit (Sleep 1000);; search_loop range' query
      end
  end.

(** [for attempt in range(3)].  The [aiohttp] session opened around
    the loop is not used by it. *)
Definition tavily_search (query : string) : M (result search_return) :=
  search_loop (seq 0 3) query.

End Tool.

(** What the caller of the tool reads back: the returned string, or
    the text of the error. *)
Definition tool_output (r : result search_return) : string :=
  match r with
  | inl v => returned v
  | inr e => exn_str e
  end.

(** *** Lines 176-199: the chat loop *)

Definition timeout_text : string :=
  "Agent: Request timed out. Please check your network and try again.".

Section ChatLoop.

Variable run : runner.

(** Lines 186-199: one turn, under its handlers. *)
Definition turn (user_input : string) (c : console) : console :=
  let (aw, store') := run user_input (store c) in
  let line :=
    match wait_for aw 30000 with
    | inl final_output => "Agent: " +:+ final_output
    | inr TimeoutError => timeout_text
    | inr e => "Agent: Error occurred: " +:+ exn_str e
               +:+ ". Please try again or check API keys."
    end in
  Console (events c ++ [RunnerRun user_input; Print line]) store'.

(** Lines 180-199: [while True], reading the lines of [stdin]. *)
Fixpoint chat_from (stdin : list string) (c : console) : ending * console :=
  match stdin with
  | [] => (InputClosed, log c [Prompt "You: "])
  | user_input :: stdin' =>
      let c := log c [Prompt "You: "] in
      if String.eqb (lower user_input) "exit"
      then (Exited, Console (events c ++ [Print "Goodbye!"; ClearSession]) [])
      else chat_from stdin' (turn user_input c)
  end.

Definition chat_loop (stdin : list string) (db : session) : ending * console :=
  chat_from stdin (Console [Print "Start chatting (type 'exit' to quit):"] db).

(** The program: the module body, then [asyncio.run(chat_loop())]. *)
Definition main (dotenv env : gmap string string)
                (stdin : list string) (db : session) : ending * console :=
  match startup dotenv env with
  | inr e => (Uncaught e, Console [] db)
  | inl _ => chat_loop stdin db
  end.

End ChatLoop.

End DeepSearchAgent.

(** What one call of a one-shot search tool did: the lines it printed,
    how long its backend call blocked (milliseconds), and the value it
    returned or the exception that left it. *)
Record tool_run : Type := ToolRun {
  printed : list string;
  blocked : N;
  returns : result string
}.

(** ** src/DeepResearchAgent/main.py *)

Module MainAgent.

Record config : Type := Config {
  GEMINI : string;
  TAVILY : string;
  URL_ : option string;
  environ : gmap string string
}.

(** Lines 9-17.  Line 11 stores [os.getenv("OPENAI_API_KEY")] in
    [os.environ]: storing [None] raises [TypeError]. *)
Definition startup (dotenv env0 : gmap string string) : result config :=
  let env := load_dotenv dotenv env0 in
  match env !! "OPENAI_API_KEY" with
  | None => inr (TypeError "str expected, not NoneType")
  | Some v =>
      let env := <["OPENAI_API_KEY" := v]> env in
      let gemini := env !! "GEMINI_API_KEY" in
      let tavily := env !! "TAVILY_API_KEY" in
      if negb (truthy gemini) || negb (truthy tavily)
      then inr (ValueError "API KEY MISSING")
      else inl (Config (default "" gemini) (default "" tavily) (env !! "BASE_URL") env)
  end.

Section Tool.

Variable backend : DeepSearchAgent.search_backend.
Variable str : pyval -> string.


End Tool.

Section ChatLoop.

Variable run : runner.

(** Lines 103-116.  The turn has no handler and no time budget.  In
    the exit branch [session.clear_session()] is called but not
    awaited: the coroutine it makes never runs. *)
Fixpoint chat_from (stdin : list string) (c : console) : ending * console :=
  match stdin with
  | [] => (InputClosed, log c [Prompt "You: "])
  | user_input :: stdin' =>
      let c := log c [Prompt "You: "] in
      if String.eqb (lower user_input) "exit"
      then (Exited, log c [Print "Goodbye!"])
      else
        let (aw, store') := run user_input (store c) in
        match await aw with
        | inl final_output =>
            chat_from stdin'
              (Console (events c ++ [RunnerRun user_input;
                                     Print ("Agent: " +:+ final_output)]) store')
        | inr e => (Uncaught e, Console (events c ++ [RunnerRun user_input]) store')
        end
  end.

Definition chat_loop (stdin : list string) (db : session) : ending * console :=
  chat_from stdin (Console [Print "Start chatting (type 'exit' to quit):"] db).

Definition main (dotenv env : gmap string string)
                (stdin : list string) (db : session) : ending * console :=
  match startup dotenv env with
  | inr e => (Uncaught e, Console [] db)
  | inl _ => chat_loop stdin db
  end.

End ChatLoop.

End MainAgent.

(** ** src/DeepResearchAgent/newAgent.py *)

Module NewAgent.

(** Lines 6-13: the same check as in DeepSearchAgent.py. *)
Definition startup (dotenv env : gmap string string)
  : result DeepSearchAgent.config :=
  DeepSearchAgent.startup dotenv env.

Section Tool.

Variable backend : DeepSearchAgent.search_backend.
Variable str : pyval -> string.

(** Lines 19-24: the search tool, as in main.py without the line
    printed. *)
Definition tavily_search (query : string) (n : nat) : tool_run :=
  let call := backend n query in
  ToolRun [] (duration call)
          (match outcome call with
           | inl response => inl (str response)
           | inr e => inr e
           end).

End Tool.

Section ChatLoop.

Variable run : runner.

(** Lines 115-126.  The session is cleared on exit; the turn has no
    handler and no time budget. *)
Fixpoint chat_from (stdin : list string) (c : console) : ending * console :=
  match stdin with
  | [] => (InputClosed, log c [Prompt "You: "])
  | user_input :: stdin' =>
      let c := log c [Prompt "You: "] in
      if String.eqb (lower user_input) "exit"
      then (Exited, Console (events c ++ [Print "Goodbye!"; ClearSession]) [])
      else
        let (aw, store') := run user_input (store c) in
        match await aw with
        | inl final_output =>
            chat_from stdin'
              (Console (events c ++ [RunnerRun user_input;
                                     Print ("Agent: " +:+ final_output)]) store')
        | inr e => (Uncaught e, Console (events c ++ [RunnerRun user_input]) store')
        end
  end.

Definition chat_loop (stdin : list string) (db : session) : ending * console :=
  chat_from stdin (Console [Print "Start chatting (type 'exit' to quit):"] db).

End ChatLoop.

End NewAgent.

(** ** Observations on a run, and the inputs used as examples *)

Module Observe.
Import DeepSearchAgent.

(** The text of the fallback data set. *)
Definition fallback_text : string := json_text mocked_data.

(** The [k] attempts of one tool call, a one-second sleep between two. *)
Fixpoint retry_actions (query : string) (k : nat) : list action :=
  match k with
  | 0 => []
  | 1 => [Attempt query 10000]
  | S k' => Attempt query 10000 :: Sleep 1000 :: retry_actions query k'
  end.

(** What the [n]-th backend call yields inside the [try] of the tool. *)
Definition attempted (backend : search_backend) (n : nat) (query : string)
  : result string :=
  value (try_search backend query n).

Definition failed (backend : search_backend) (n : nat) (query : string) : Prop :=
  ∃ e, attempted backend n query = inr e.

(** The shape of a search response, as the specification gives it for
    the backend: an object whose [results] field lists entries with the
    two text fields [url] and [content], and no other. *)
Definition spec_entry (v : pyval) : bool :=
  match v with
  | PyDict [(k1, PyStr _); (k2, PyStr _)] =>
      (String.eqb k1 "url" && String.eqb k2 "content")
      || (String.eqb k1 "content" && String.eqb k2 "url")
  | _ => false
  end.

Definition spec_result_set (v : pyval) : bool :=
  match v with
  | PyDict d =>
      match List.find (fun kv => String.eqb (fst kv) "results") d with
      | Some (_, PyList entries) => forallb spec_entry entries
      | _ => false
      end
  | _ => false
  end.

(** A line ends the chat loops when its lower-case form is the word
    [exit]. *)
Definition exits (line : string) : bool := String.eqb (lower line) "exit".

(** The lines read before the first one that ends the loop. *)
Fixpoint before_exit (stdin : list string) : list string :=
  match stdin with
  | [] => []
  | line :: stdin' => if exits line then [] else line :: before_exit stdin'
  end.

(** The inputs the runner was called with. *)
Definition runner_inputs (es : list event) : list string :=
  omap (fun e => match e with RunnerRun u => Some u | _ => None end) es.

(** *** Example inputs *)

(** A backend that is unreachable: every call raises after 50 ms. *)
Definition unreachable : search_backend :=
  fun _ _ => Awaitable 50 (inr (OtherError "ConnectionError" "Network unreachable")).

(** A runner that echoes the line after a second and stores it; the line
    [slow] takes 31 seconds, the line [bad] raises. *)
Definition echo_runner : runner :=
  fun user_input items =>
    (Awaitable (if String.eqb user_input "slow" then 31000 else 1000)
               (if String.eqb user_input "bad"
                then inr (OtherError "APIError" "boom")
                else inl ("re: " +:+ user_input)),
     items ++ [user_input]).

Definition research_question : string := "compare electric vs gas cars".

(** *** The environment at start-up *)

(** A key is usable when it is set to a string that is not empty. *)
Definition usable (env : gmap string string) (k : string) : Prop :=
  ∃ v, env !! k = Some v ∧ v ≠ "".

Definition missing (env : gmap string string) (k : string) : Prop :=
  env !! k = None ∨ env !! k = Some "".

Definition both_keys : gmap string string :=
  {[ "GEMINI_API_KEY" := "AIza-1"; "TAVILY_API_KEY" := "tvly-1" ]}.

Definition empty_gemini_key : gmap string string :=
  {[ "GEMINI_API_KEY" := ""; "TAVILY_API_KEY" := "tvly-1" ]}.

Definition no_tavily_key : gmap string string :=
  {[ "GEMINI_API_KEY" := "AIza-1"; "OPENAI_API_KEY" := "sk-1" ]}.

End Observe.

(** ** Time and sessions of a run *)

Module Measure.
Import DeepSearchAgent Observe.

(** The time the actions of a trace take, in milliseconds, when the
    first attempt of the trace is the [n]-th backend call.  An attempt
    takes the whole of its backend call: the call is blocking and has
    ended before [asyncio.wait_for] is entered, so the budget of the
    attempt cuts nothing.  A sleep takes its length. *)
Fixpoint elapsed (backend : search_backend) (n : nat) (acts : list action) : N :=
  match acts with
  | [] => 0
  | Attempt query _ :: acts' =>
      duration (backend n query) + elapsed backend (S n) acts'
  | Sleep ms :: acts' => ms + elapsed backend n acts'
  end.

(** The session the turns of [stdin] leave behind, from [items]. *)
Definition session_after (run : runner) (stdin : list string) (items : session)
  : session :=
  fold_left (fun s u => snd (run u s)) stdin items.

(** A turn that [DeepSearchAgent.chat_loop] answers with the final
    output: the run ends in time and returns. *)
Definition answers (run : runner) (u : string) (s : session) : Prop :=
  (duration (fst (run u s)) <= 30000)%N ∧ ∃ out, outcome (fst (run u s)) = inl out.

(** Every turn of [stdin] before the first exit line is answered, each
    on the session the turns before it left, from [s]. *)
Fixpoint all_answered (run : runner) (stdin : list string) (s : session) : Prop :=
  match stdin with
  | [] => True
  | u :: stdin' =>
      if exits u then True
      else answers run u s ∧ all_answered run stdin' (snd (run u s))
  end.

(** *** Example inputs *)

(** A backend that answers every call, after a minute. *)
Definition answers_in_a_minute : search_backend :=
  fun _ _ => Awaitable 60000 (inl (PyDict [("results", PyList [])])).




(** A runner whose run raises [TimeoutError] itself, after 5 ms. *)
Definition timing_out_runner : runner :=
  fun user_input items => (Awaitable 5 (inr TimeoutError), items ++ [user_input]).

(** A runner that answers after a second on an empty session and after
    31 seconds on any other. *)
Definition moody_runner : runner :=
  fun user_input items =>
    (Awaitable (match items with [] => 1000 | _ => 31000 end)
               (inl ("re: " +:+ user_input)),
     items ++ [user_input]).

(** An environment with the three keys, and a [.env] file with other
    values for two of them. *)
Definition all_keys : gmap string string :=
  {[ "GEMINI_API_KEY" := "AIza-1"; "TAVILY_API_KEY" := "tvly-1";
     "OPENAI_API_KEY" := "sk-1" ]}.

Definition dotenv_file : gmap string string :=
  {[ "GEMINI_API_KEY" := "AIza-file"; "BASE_URL" := "https://example.org/v1/" ]}.

End Measure.

(** * Properties *)

(** ** The search tool of DeepSearchAgent.py *)

Module SearchTool.
Import DeepSearchAgent.

Import Observe Measure.

Section Facts.

Variable backend : search_backend.

Lemma try_search_run query n :
  try_search backend query n
  = Ran (attempted backend n query) (S n) [Attempt query 10000].
Proof. reflexivity. Qed.

(** No attempt gets past [asyncio.wait_for]: the search call raises, or
    it returns a response that is not awaitable. *)
Lemma every_attempt_fails n query : failed backend n query.
Proof.
  unfold failed, attempted, try_search; cbn [value].
  destruct (outcome (backend n query)) as [found|e]; eauto.
Qed.

(** One round of the loop. *)
Lemma search_loop_step attempt range query n :
  search_loop backend (attempt :: range) query n =
  match attempted backend n query with
  | inl t => Ran (inl (Response t)) (S n) [Attempt query 10000]
  | inr _ =>
      if Nat.eqb attempt 2
      then Ran (inl (Fallback fallback_text)) (S n) [Attempt query 10000]
      else let rest := search_loop backend range query (S n) in
           Ran (value rest) (calls rest)
               (Attempt query 10000 :: Sleep 1000 :: actions rest)
  end.
Proof.
  cbn [search_loop]. unfold mbind, M_bind. rewrite try_search_run.
  cbn [value calls actions].
  destruct (attempted backend n query); [reflexivity|].
  destruct (Nat.eqb attempt 2); reflexivity.
Qed.

(** The loop, attempt by attempt. *)
Lemma tavily_search_cases query n :
  tavily_search backend query n =
  match attempted backend n query with
  | inl t => Ran (inl (Response t)) (n + 1) (retry_actions query 1)
  | inr _ =>
      match attempted backend (n + 1) query with
      | inl t => Ran (inl (Response t)) (n + 2) (retry_actions query 2)
      | inr _ =>
          match attempted backend (n + 2) query with
          | inl t => Ran (inl (Response t)) (n + 3) (retry_actions query 3)
          | inr _ => Ran (inl (Fallback fallback_text)) (n + 3) (retry_actions query 3)
          end
      end
  end.
Proof.
  unfold tavily_search.
  replace (n + 1) with (S n) by lia.
  replace (n + 2) with (S (S n)) by lia.
  replace (n + 3) with (S (S (S n))) by lia.
  change (seq 0 3) with [0; 1; 2].
  rewrite search_loop_step.
  destruct (attempted backend n query); [reflexivity|].
  rewrite search_loop_step.
  destruct (attempted backend (S n) query); [reflexivity|].
  rewrite search_loop_step.
  destruct (attempted backend (S (S n)) query); reflexivity.
Qed.

(** Every call runs the loop to its third attempt and returns there. *)
Lemma tavily_search_always query n :
  tavily_search backend query n
  = Ran (inl (Fallback fallback_text)) (n + 3) (retry_actions query 3).
Proof.
  rewrite tavily_search_cases.
  destruct (every_attempt_fails n query) as [e0 ->].
  destruct (every_attempt_fails (n + 1) query) as [e1 ->].
  now destruct (every_attempt_fails (n + 2) query) as [e2 ->].
Qed.

Lemma elapsed_retry_3 query n :
  elapsed backend n (retry_actions query 3)
  = (duration (backend n query) + 1000
     + duration (backend (n + 1)%nat query) + 1000
     + duration (backend (n + 2)%nat query))%N.
Proof.
  replace (n + 1) with (S n) by lia. replace (n + 2) with (S (S n)) by lia.
  cbn. lia.
Qed.

(** [json.dumps] never writes text that starts with a capital S. *)
Lemma json_int_head z rest : json_int z ≠ String "S" rest.
Proof.
  unfold json_int, NilZero.string_of_int.
  destruct z as [|p|p]; simpl; try discriminate.
  unfold NilZero.string_of_uint.
  pose proof (DecimalPos.Unsigned.to_uint_nonnil p) as Hnil.
  destruct (Pos.to_uint p); simpl; congruence.
Qed.

Lemma json_text_head v rest :
  serializable v = true → json_text v ≠ String "S" rest.
Proof.
  destruct v as [|[]| | | | |]; simpl; try discriminate.
  intros _. apply json_int_head.
Qed.

Lemma json_dumps_not_sentinel v text :
  json_dumps v = inl text → text ≠ search_failed_text.
Proof.
  unfold json_dumps. destruct (serializable v) eqn:Hs; [|discriminate].
  intros [= <-]. now apply json_text_head.
Qed.

(** C4.  The statement after the loop of [tavily_search] is never
    reached: every call returns from inside the loop.  The value is the
    serialised fallback data set (no attempt gets as far as the return
    of a serialised response), and the string the tool hands back is
    never "Search failed: Network unreachable". *)
Theorem sentinel_unreachable query n :
  (∀ text, value (tavily_search backend query n) ≠ inl (Sentinel text))
  ∧ value (tavily_search backend query n) = inl (Fallback fallback_text)
  ∧ tool_output (value (tavily_search backend query n)) ≠ search_failed_text.
Proof.
  rewrite tavily_search_always. cbn [value tool_output returned].
  split; [discriminate|]. split; [reflexivity|].
  apply (json_dumps_not_sentinel mocked_data). reflexivity.
Qed.

(** C6.  The fallback data set has the shape of a search response: one
    object with the field [results], a list of five entries, each an
    object with exactly the text fields [url] and [content];
    [json.dumps] serialises it without error, and it is what the tool
    returns, with no mark that sets it apart from a response, when all
    three attempts fail. *)
Theorem fallback_has_result_shape query n :
  spec_result_set mocked_data = true
  ∧ (∃ entries,
        mocked_data = PyDict [("results", PyList entries)]
        ∧ length entries = 5
        ∧ Forall (λ entry, ∃ u c,
                    entry = PyDict [("url", PyStr u); ("content", PyStr c)])
                 entries)
  ∧ json_dumps mocked_data = inl fallback_text
  ∧ (failed backend n query → failed backend (n + 1) query → failed backend (n + 2) query →
     tool_output (value (tavily_search backend query n)) = fallback_text).
Proof.
  split; [reflexivity|]. split.
  { eexists. split; [reflexivity|]. split; [reflexivity|].
    repeat constructor; eauto. }
  split; [reflexivity|].
  intros [e0 H0] [e1 H1] [e2 H2].
  now rewrite tavily_search_cases, H0, H1, H2.
Qed.

End Facts.

(** C2.  The budget of an attempt is not enforced.  On a backend that
    answers every call, after a minute: each of the three attempts blocks
    for the whole minute, none of the three responses is returned, and
    the tool hands back the fallback data set after 182 seconds (three
    calls of 60 seconds and two sleeps of one second). *)
Theorem search_budget_not_enforced :
  (∀ i, duration (answers_in_a_minute i research_question) = 60000%N
        ∧ outcome (answers_in_a_minute i research_question)
          = inl (PyDict [("results", PyList [])]))
  ∧ attempted answers_in_a_minute 0 research_question
    = inr (TypeError "An asyncio.Future, a coroutine or an awaitable is required")
  ∧ tavily_search answers_in_a_minute research_question 0
    = Ran (inl (Fallback fallback_text)) 3 (retry_actions research_question 3)
  ∧ elapsed answers_in_a_minute 0
      (actions (tavily_search answers_in_a_minute research_question 0)) = 182000%N.
Proof.
  split; [intros i; split; reflexivity|].
  split; [reflexivity|].
  split; [apply tavily_search_always|].
  rewrite tavily_search_always. cbn [actions]. now rewrite elapsed_retry_3.
Qed.

Lemma fallback_has_result_shape_witness :
  tool_output (value (tavily_search unreachable research_question 0)) = fallback_text.
Proof.
  apply (fallback_has_result_shape unreachable research_question 0);
    eexists; reflexivity.
Defined.

End SearchTool.

(** ** The start-up key check *)

Module Startup.
Import Observe.

Lemma truthy_usable env k : truthy (env !! k) = true ↔ usable env k.
Proof.
  unfold usable, truthy. destruct (env !! k) as [v|]; split.
  - intros Hv. exists v. split; [reflexivity|].
    intros ->. discriminate.
  - intros (v' & [= <-] & Hne). destruct (String.eqb_spec v ""); [contradiction|reflexivity].
  - discriminate.
  - intros (v' & Hv & _). discriminate.
Qed.

Lemma truthy_missing env k : truthy (env !! k) = false ↔ missing env k.
Proof.
  unfold missing, truthy. destruct (env !! k) as [v|]; split.
  - destruct (String.eqb_spec v ""); [intros _; right; congruence|discriminate].
  - intros [Hv|[= ->]]; [discriminate|reflexivity].
  - now left.
  - reflexivity.
Qed.

Section Facts.

Variable run : runner.

Lemma deep_startup_lookup dotenv env k :
  k ≠ "OPENAI_API_KEY" →
  (<["OPENAI_API_KEY" := default "" (load_dotenv dotenv env !! "OPENAI_API_KEY")]>
     (load_dotenv dotenv env)) !! k = load_dotenv dotenv env !! k.
Proof. intros Hk. now rewrite lookup_insert_ne. Qed.

Lemma deep_startup_cases dotenv env :
  DeepSearchAgent.startup dotenv env =
  let loaded := load_dotenv dotenv env in
  if truthy (loaded !! "GEMINI_API_KEY") && truthy (loaded !! "TAVILY_API_KEY")
  then inl (DeepSearchAgent.Config
              (default "" (loaded !! "GEMINI_API_KEY"))
              (default "" (loaded !! "TAVILY_API_KEY"))
              (<["OPENAI_API_KEY" := default "" (loaded !! "OPENAI_API_KEY")]> loaded))
  else inr (ValueError "API KEY MISSING").
Proof.
  unfold DeepSearchAgent.startup. cbv zeta.
  rewrite !deep_startup_lookup by discriminate.
  destruct (truthy (_ !! "GEMINI_API_KEY")), (truthy (_ !! "TAVILY_API_KEY"));
    reflexivity.
Qed.

Lemma main_startup_cases dotenv env :
  MainAgent.startup dotenv env =
  let loaded := load_dotenv dotenv env in
  match loaded !! "OPENAI_API_KEY" with
  | None => inr (TypeError "str expected, not NoneType")
  | Some v =>
      if truthy (loaded !! "GEMINI_API_KEY") && truthy (loaded !! "TAVILY_API_KEY")
      then inl (MainAgent.Config
                  (default "" (loaded !! "GEMINI_API_KEY"))
                  (default "" (loaded !! "TAVILY_API_KEY"))
                  (loaded !! "BASE_URL")
                  (<["OPENAI_API_KEY" := v]> loaded))
      else inr (ValueError "API KEY MISSING")
  end.
Proof.
  unfold MainAgent.startup. cbv zeta.
  destruct (load_dotenv dotenv env !! "OPENAI_API_KEY") as [v|]; [|reflexivity].
  rewrite !lookup_insert_ne by discriminate.
  destruct (truthy (_ !! "GEMINI_API_KEY")), (truthy (_ !! "TAVILY_API_KEY"));
    reflexivity.
Qed.

(** C8, as the code has it.  With the environment as [load_dotenv]
    leaves it: when the Gemini key or the Tavily key is absent or empty,
    each program stops at start-up with an exception and no turn is
    processed (DeepSearchAgent.py and newAgent.py raise ValueError, API
    KEY MISSING); when both keys are set to strings that are not empty,
    DeepSearchAgent.py and newAgent.py start the chat loop, and main.py
    does not raise the missing-key error. *)
Theorem startup_key_check (dotenv env : gmap string string)
    (stdin : list string) (db : session) :
  let loaded := load_dotenv dotenv env in
  (missing loaded "GEMINI_API_KEY" ∨ missing loaded "TAVILY_API_KEY" →
     DeepSearchAgent.startup dotenv env = inr (ValueError "API KEY MISSING")
     ∧ NewAgent.startup dotenv env = inr (ValueError "API KEY MISSING")
     ∧ DeepSearchAgent.main run dotenv env stdin db
       = (Uncaught (ValueError "API KEY MISSING"), Console [] db)
     ∧ (∃ e, MainAgent.startup dotenv env = inr e
             ∧ MainAgent.main run dotenv env stdin db = (Uncaught e, Console [] db)))
  ∧ (usable loaded "GEMINI_API_KEY" ∧ usable loaded "TAVILY_API_KEY" →
     (∃ cfg, DeepSearchAgent.startup dotenv env = inl cfg
             ∧ NewAgent.startup dotenv env = inl cfg
             ∧ loaded !! "GEMINI_API_KEY" = Some (DeepSearchAgent.GEMINI_API_KEY cfg)
             ∧ loaded !! "TAVILY_API_KEY" = Some (DeepSearchAgent.TAVILY_API_KEY cfg))
     ∧ DeepSearchAgent.main run dotenv env stdin db
       = DeepSearchAgent.chat_loop run stdin db
     ∧ MainAgent.startup dotenv env ≠ inr (ValueError "API KEY MISSING")).
Proof.
  cbv zeta. split.
  - intros Hmissing.
    assert (Hkeys : truthy (load_dotenv dotenv env !! "GEMINI_API_KEY")
                    && truthy (load_dotenv dotenv env !! "TAVILY_API_KEY") = false).
    { apply andb_false_iff.
      destruct Hmissing as [H|H]; [left|right]; now apply truthy_missing. }
    unfold DeepSearchAgent.main, MainAgent.main, NewAgent.startup.
    rewrite deep_startup_cases, main_startup_cases. cbv zeta. rewrite Hkeys.
    repeat split.
    destruct (load_dotenv dotenv env !! "OPENAI_API_KEY"); eauto.
  - intros [Hg Ht].
    pose proof (proj2 (truthy_usable _ _) Hg) as Hg'.
    pose proof (proj2 (truthy_usable _ _) Ht) as Ht'.
    destruct Hg as (g & Hg & _), Ht as (t & Ht & _).
    unfold DeepSearchAgent.main, NewAgent.startup.
    rewrite deep_startup_cases, main_startup_cases. cbv zeta.
    rewrite Hg', Ht'. cbn [andb]. repeat split.
    + eexists. repeat split; cbn; now rewrite ?Hg, ?Ht.
    + destruct (load_dotenv dotenv env !! "OPENAI_API_KEY"); discriminate.
Qed.

End Facts.

Lemma startup_key_check_witness :
  DeepSearchAgent.startup ∅ no_tavily_key = inr (ValueError "API KEY MISSING")
  ∧ DeepSearchAgent.main echo_runner ∅ both_keys ["exit"] []
    = DeepSearchAgent.chat_loop echo_runner ["exit"] [].
Proof.
  split.
  - apply (startup_key_check echo_runner ∅ no_tavily_key [] []).
    right. left. reflexivity.
  - apply (startup_key_check echo_runner ∅ both_keys ["exit"] []).
    split; eexists; (split; [reflexivity|discriminate]).
Defined.

(** The claim C8 as the specification words it fails on the code: a key
    that is present but empty stops the program like an absent one. *)
Lemma present_but_empty_key_is_rejected :
  is_Some (load_dotenv ∅ empty_gemini_key !! "GEMINI_API_KEY")
  ∧ is_Some (load_dotenv ∅ empty_gemini_key !! "TAVILY_API_KEY")
  ∧ DeepSearchAgent.startup ∅ empty_gemini_key = inr (ValueError "API KEY MISSING")
  ∧ MainAgent.startup ∅ (<["OPENAI_API_KEY" := "sk-1"]> empty_gemini_key)
    = inr (ValueError "API KEY MISSING").
Proof. repeat split; try (eexists; reflexivity); reflexivity. Qed.

(** In main.py the line before the check stores the OpenAI key in the
    environment: with that key absent the start-up stops there, whatever
    the two other keys are. *)
Lemma main_py_needs_openai_key :
  MainAgent.startup ∅ both_keys = inr (TypeError "str expected, not NoneType")
  ∧ ∃ cfg, DeepSearchAgent.startup ∅ both_keys = inl cfg.
Proof. split; [reflexivity|eexists; reflexivity]. Qed.

End Startup.

(** ** The chat loops *)

Module ChatLoop.
Import Observe.

Lemma starts_with_append p s : starts_with p (p +:+ s) = true.
Proof.
  induction p as [|a p IH]; [reflexivity|].
  simpl. now rewrite Ascii.eqb_refl, IH.
Qed.

Lemma runner_inputs_app es1 es2 :
  runner_inputs (es1 ++ es2) = runner_inputs es1 ++ runner_inputs es2.
Proof. apply omap_app. Qed.

Lemma agent_lines_app es1 es2 :
  agent_lines (es1 ++ es2) = agent_lines es1 ++ agent_lines es2.
Proof. apply omap_app. Qed.

Lemma exits_lower line : exits line = true ↔ lower line = "exit".
Proof. unfold exits. apply String.eqb_eq. Qed.

Section Facts.

Variable run : runner.

(** *** DeepSearchAgent.py *)

Lemma deep_exit u stdin c :
  exits u = true →
  DeepSearchAgent.chat_from run (u :: stdin) c
  = (Exited, Console (events c ++ [Prompt "You: "; Print "Goodbye!"; ClearSession]) []).
Proof.
  unfold exits. intros Hu. simpl. rewrite Hu.
  now rewrite <- app_assoc.
Qed.

Lemma deep_turn u stdin c :
  exits u = false →
  DeepSearchAgent.chat_from run (u :: stdin) c
  = DeepSearchAgent.chat_from run stdin
      (DeepSearchAgent.turn run u (log c [Prompt "You: "])).
Proof. unfold exits. intros Hu. simpl. now rewrite Hu. Qed.

(** The line a turn prints. *)
Lemma deep_turn_prints u c :
  ∃ line,
    DeepSearchAgent.turn run u c
    = Console (events c ++ [RunnerRun u; Print line]) (snd (run u (store c)))
    ∧ starts_with "Agent: " line = true
    ∧ match wait_for (fst (run u (store c))) 30000 with
      | inl final_output => line = "Agent: " +:+ final_output
      | inr TimeoutError => line = DeepSearchAgent.timeout_text
      | inr e => line = "Agent: Error occurred: " +:+ exn_str e
                        +:+ ". Please try again or check API keys."
      end.
Proof.
  unfold DeepSearchAgent.turn.
  destruct (run u (store c)) as [aw store']. cbn [fst snd].
  destruct (wait_for aw 30000) as [out|[]]; eexists;
    (split; [reflexivity|]); (split; [|reflexivity]);
    first [apply starts_with_append | reflexivity].
Qed.

Lemma deep_turn_observed u c :
  runner_inputs (events (DeepSearchAgent.turn run u c)) = runner_inputs (events c) ++ [u]
  ∧ length (agent_lines (events (DeepSearchAgent.turn run u c)))
    = S (length (agent_lines (events c))).
Proof.
  destruct (deep_turn_prints u c) as (line & -> & Hline & _). cbn [events].
  rewrite runner_inputs_app, agent_lines_app, List.length_app.
  cbn -[starts_with]. rewrite Hline. cbn. split; [reflexivity|lia].
Qed.

(** The whole loop: it reads up to the first line that ends it, hands each
    line before that to the runner once, prints one Agent line for each,
    and stops by the exit branch or because the input is closed. *)
Lemma deep_chat_from_observed stdin c :
  fst (DeepSearchAgent.chat_from run stdin c)
  = (if existsb exits stdin then Exited else InputClosed)
  ∧ runner_inputs (events (snd (DeepSearchAgent.chat_from run stdin c)))
    = runner_inputs (events c) ++ before_exit stdin
  ∧ length (agent_lines (events (snd (DeepSearchAgent.chat_from run stdin c))))
    = length (agent_lines (events c)) + length (before_exit stdin).
Proof.
  revert c. induction stdin as [|u stdin IH]; intros c.
  - cbn. rewrite runner_inputs_app, agent_lines_app, ?app_nil_r. cbn.
    rewrite ?app_nil_r. repeat split; lia.
  - cbn [existsb before_exit]. destruct (exits u) eqn:Hu.
    + rewrite deep_exit by exact Hu. cbn [fst snd events orb].
      rewrite runner_inputs_app, agent_lines_app. cbn.
      rewrite ?app_nil_r. repeat split; lia.
    + rewrite deep_turn by exact Hu. cbn [orb].
      destruct (IH (DeepSearchAgent.turn run u (log c [Prompt "You: "])))
        as (Hend & Hin & Hout).
      destruct (deep_turn_observed u (log c [Prompt "You: "])) as (Hin1 & Hout1).
      rewrite Hend, Hin, Hout, Hin1, Hout1. unfold log. cbn [events].
      rewrite runner_inputs_app, agent_lines_app. cbn.
      rewrite ?app_nil_r, <- app_assoc. cbn. repeat split; lia.
Qed.

(** *** main.py and newAgent.py *)

Lemma main_exit u stdin c :
  exits u = true →
  MainAgent.chat_from run (u :: stdin) c
  = (Exited, Console (events c ++ [Prompt "You: "; Print "Goodbye!"]) (store c)).
Proof.
  unfold exits. intros Hu. simpl. rewrite Hu. unfold log. cbn.
  now rewrite <- app_assoc.
Qed.

Lemma main_turn u stdin c :
  exits u = false →
  MainAgent.chat_from run (u :: stdin) c =
  match outcome (fst (run u (store c))) with
  | inl final_output =>
      MainAgent.chat_from run stdin
        (Console (events c ++ [Prompt "You: "; RunnerRun u;
                               Print ("Agent: " +:+ final_output)])
                 (snd (run u (store c))))
  | inr e =>
      (Uncaught e,
       Console (events c ++ [Prompt "You: "; RunnerRun u]) (snd (run u (store c))))
  end.
Proof.
  unfold exits. intros Hu. simpl. rewrite Hu. unfold log, await. cbn [store events].
  destruct (run u (store c)) as [aw store']. cbn [fst snd].
  destruct (outcome aw); now rewrite <- app_assoc.
Qed.

Lemma new_exit u stdin c :
  exits u = true →
  NewAgent.chat_from run (u :: stdin) c
  = (Exited, Console (events c ++ [Prompt "You: "; Print "Goodbye!"; ClearSession]) []).
Proof.
  unfold exits. intros Hu. simpl. rewrite Hu.
  now rewrite <- app_assoc.
Qed.

Lemma new_turn u stdin c :
  exits u = false →
  NewAgent.chat_from run (u :: stdin) c =
  match outcome (fst (run u (store c))) with
  | inl final_output =>
      NewAgent.chat_from run stdin
        (Console (events c ++ [Prompt "You: "; RunnerRun u;
                               Print ("Agent: " +:+ final_output)])
                 (snd (run u (store c))))
  | inr e =>
      (Uncaught e,
       Console (events c ++ [Prompt "You: "; RunnerRun u]) (snd (run u (store c))))
  end.
Proof.
  unfold exits. intros Hu. simpl. rewrite Hu. unfold log, await. cbn [store events].
  destruct (run u (store c)) as [aw store']. cbn [fst snd].
  destruct (outcome aw); now rewrite <- app_assoc.
Qed.

(** C5, as the code has it.  In DeepSearchAgent.py no exception of a
    turn leaves the chat loop: the loop ends by the exit branch or when
    the input is closed, every line read before that is answered by one
    Agent line, and a turn that raises is answered by the error message
    and followed by the next line.  In main.py and newAgent.py the turn
    has no handler: an exception of the runner leaves [chat_loop], and no
    further line is read. *)
Theorem turn_errors_contained (stdin : list string) (db : session)
    (u : string) (c : console) :
  (fst (DeepSearchAgent.chat_loop run stdin db)
     = (if existsb exits stdin then Exited else InputClosed)
   ∧ length (agent_lines (events (snd (DeepSearchAgent.chat_loop run stdin db))))
     = length (before_exit stdin))
  ∧ (∀ e, exits u = false →
          wait_for (fst (run u (store c))) 30000 = inr e →
          e ≠ TimeoutError →
          DeepSearchAgent.chat_from run (u :: stdin) c
          = DeepSearchAgent.chat_from run stdin
              (Console (events c ++ [Prompt "You: "; RunnerRun u;
                                     Print ("Agent: Error occurred: " +:+ exn_str e
                                            +:+ ". Please try again or check API keys.")])
                       (snd (run u (store c)))))
  ∧ (∀ e, exits u = false →
          outcome (fst (run u (store c))) = inr e →
          fst (MainAgent.chat_from run (u :: stdin) c) = Uncaught e
          ∧ fst (NewAgent.chat_from run (u :: stdin) c) = Uncaught e).
Proof.
  split; [|split].
  - unfold DeepSearchAgent.chat_loop.
    destruct (deep_chat_from_observed stdin
                (Console [Print "Start chatting (type 'exit' to quit):"] db))
      as (Hend & _ & Hout).
    split; [exact Hend|]. rewrite Hout. reflexivity.
  - intros e Hu He Hne. rewrite deep_turn by exact Hu.
    destruct (deep_turn_prints u (log c [Prompt "You: "])) as (line & -> & _ & Hline).
    unfold log in *. cbn [store events] in *. rewrite He in Hline.
    rewrite <- app_assoc. cbn [app].
    destruct e; try subst line; try reflexivity. contradiction.
  - intros e Hu He. rewrite main_turn, new_turn by exact Hu. now rewrite He.
Qed.

(** C7, as the code has it.  In DeepSearchAgent.py a turn runs under a
    budget of 30 seconds: when the runner takes longer, the loop prints
    the fixed time-out message in place of any result and goes on with
    the next line; within the budget it prints the final output.  In
    main.py and newAgent.py the runner is awaited without a budget: the
    final output is printed however long the turn took. *)
Theorem turn_time_budget (stdin : list string) (u : string) (c : console) :
  (exits u = false →
   (30000 < duration (fst (run u (store c))))%N →
   DeepSearchAgent.chat_from run (u :: stdin) c
   = DeepSearchAgent.chat_from run stdin
       (Console (events c ++ [Prompt "You: "; RunnerRun u;
                              Print DeepSearchAgent.timeout_text])
                (snd (run u (store c)))))
  ∧ (∀ out, exits u = false →
            (duration (fst (run u (store c))) <= 30000)%N →
            outcome (fst (run u (store c))) = inl out →
            DeepSearchAgent.chat_from run (u :: stdin) c
            = DeepSearchAgent.chat_from run stdin
                (Console (events c ++ [Prompt "You: "; RunnerRun u;
                                       Print ("Agent: " +:+ out)])
                         (snd (run u (store c)))))
  ∧ (∀ out, exits u = false →
            outcome (fst (run u (store c))) = inl out →
            MainAgent.chat_from run (u :: stdin) c
            = MainAgent.chat_from run stdin
                (Console (events c ++ [Prompt "You: "; RunnerRun u;
                                       Print ("Agent: " +:+ out)])
                         (snd (run u (store c))))
            ∧ NewAgent.chat_from run (u :: stdin) c
              = NewAgent.chat_from run stdin
                  (Console (events c ++ [Prompt "You: "; RunnerRun u;
                                         Print ("Agent: " +:+ out)])
                           (snd (run u (store c))))).
Proof.
  split; [|split].
  - intros Hu Hlong. rewrite deep_turn by exact Hu.
    destruct (deep_turn_prints u (log c [Prompt "You: "])) as (line & -> & _ & Hline).
    unfold log in *. cbn [store events] in *.
    unfold wait_for in Hline. apply N.ltb_lt in Hlong. rewrite Hlong in Hline.
    subst line. now rewrite <- app_assoc.
  - intros out Hu Hshort Hout. rewrite deep_turn by exact Hu.
    destruct (deep_turn_prints u (log c [Prompt "You: "])) as (line & -> & _ & Hline).
    unfold log in *. cbn [store events] in *.
    unfold wait_for in Hline. apply N.ltb_ge in Hshort. rewrite Hshort, Hout in Hline.
    subst line. now rewrite <- app_assoc.
  - intros out Hu Hout. rewrite main_turn, new_turn by exact Hu. now rewrite Hout.
Qed.

(** C9, as the code has it.  A line whose lower-case form is the word
    exit ends each of the three loops without a turn: the prompt and
    Goodbye are the only output, the runner is not called, the lines
    after it are not read (DeepSearchAgent.py and newAgent.py clear the
    session).  Every other line is handed to the runner exactly once. *)
Theorem exit_ends_loop (stdin : list string) (u : string) (c : console) :
  (exits u = true →
   DeepSearchAgent.chat_from run (u :: stdin) c
   = (Exited, Console (events c ++ [Prompt "You: "; Print "Goodbye!"; ClearSession]) [])
   ∧ NewAgent.chat_from run (u :: stdin) c
     = (Exited, Console (events c ++ [Prompt "You: "; Print "Goodbye!"; ClearSession]) [])
   ∧ fst (MainAgent.chat_from run (u :: stdin) c) = Exited
   ∧ events (snd (MainAgent.chat_from run (u :: stdin) c))
     = events c ++ [Prompt "You: "; Print "Goodbye!"])
  ∧ (exits u = false →
     (∃ c1, DeepSearchAgent.chat_from run (u :: stdin) c
            = DeepSearchAgent.chat_from run stdin c1
            ∧ runner_inputs (events c1) = runner_inputs (events c) ++ [u])
     ∧ (∃ c1, runner_inputs (events c1) = runner_inputs (events c) ++ [u]
              ∧ (MainAgent.chat_from run (u :: stdin) c = MainAgent.chat_from run stdin c1
                 ∨ ∃ e, MainAgent.chat_from run (u :: stdin) c = (Uncaught e, c1)))
     ∧ (∃ c1, runner_inputs (events c1) = runner_inputs (events c) ++ [u]
              ∧ (NewAgent.chat_from run (u :: stdin) c = NewAgent.chat_from run stdin c1
                 ∨ ∃ e, NewAgent.chat_from run (u :: stdin) c = (Uncaught e, c1)))).
Proof.
  split.
  - intros Hu. rewrite deep_exit, new_exit, main_exit by exact Hu. now repeat split.
  - intros Hu. rewrite deep_turn, main_turn, new_turn by exact Hu.
    split; [|split].
    + eexists. split; [reflexivity|].
      destruct (deep_turn_observed u (log c [Prompt "You: "])) as (-> & _).
      unfold log. cbn [events]. rewrite runner_inputs_app. cbn. now rewrite app_nil_r.
    + destruct (outcome (fst (run u (store c)))) as [out|e]; eexists;
        (split; [|first [left; reflexivity | right; eexists; reflexivity]]);
        cbn [events]; rewrite runner_inputs_app; reflexivity.
    + destruct (outcome (fst (run u (store c)))) as [out|e]; eexists;
        (split; [|first [left; reflexivity | right; eexists; reflexivity]]);
        cbn [events]; rewrite runner_inputs_app; reflexivity.
Qed.

(** C10.  The exit test does not look at the case of the letters: in
    DeepSearchAgent.py and newAgent.py every line whose lower-case form
    is the word exit (EXIT and Exit as well as exit) ends the loop,
    clears the session, and is not handed to the runner. *)
Theorem exit_test_ignores_case (stdin : list string) (u : string) (c : console) :
  lower u = "exit" →
  DeepSearchAgent.chat_from run (u :: stdin) c
  = (Exited, Console (events c ++ [Prompt "You: "; Print "Goodbye!"; ClearSession]) [])
  ∧ NewAgent.chat_from run (u :: stdin) c
    = (Exited, Console (events c ++ [Prompt "You: "; Print "Goodbye!"; ClearSession]) [])
  ∧ runner_inputs (events (snd (DeepSearchAgent.chat_from run (u :: stdin) c)))
    = runner_inputs (events c)
  ∧ runner_inputs (events (snd (NewAgent.chat_from run (u :: stdin) c)))
    = runner_inputs (events c)
  ∧ lower "EXIT" = "exit" ∧ lower "Exit" = "exit" ∧ lower "exit" = "exit".
Proof.
  intros Hu. apply exits_lower in Hu.
  rewrite deep_exit, new_exit by exact Hu. cbn [snd events].
  rewrite runner_inputs_app. cbn. rewrite app_nil_r. now repeat split.
Qed.

End Facts.

Lemma turn_errors_contained_witness :
  DeepSearchAgent.chat_from echo_runner ["bad"; "exit"] (Console [] [])
  = DeepSearchAgent.chat_from echo_runner ["exit"]
      (Console [Prompt "You: "; RunnerRun "bad";
                Print "Agent: Error occurred: boom. Please try again or check API keys."]
               ["bad"])
  ∧ fst (MainAgent.chat_from echo_runner ["bad"; "exit"] (Console [] []))
    = Uncaught (OtherError "APIError" "boom").
Proof.
  destruct (turn_errors_contained echo_runner ["exit"] [] "bad" (Console [] []))
    as (_ & Hcaught & Hescapes).
  split.
  - apply (Hcaught (OtherError "APIError" "boom"));
      [reflexivity | reflexivity | discriminate].
  - apply (Hescapes (OtherError "APIError" "boom")); reflexivity.
Defined.

(** The claim C5 as the specification words it fails on main.py: the
    exception of a turn ends the loop, and the line after it is never
    read. *)
Lemma main_py_turn_error_escapes :
  MainAgent.chat_loop echo_runner ["bad"; "hi"] []
  = (Uncaught (OtherError "APIError" "boom"),
     Console [Print "Start chatting (type 'exit' to quit):";
              Prompt "You: "; RunnerRun "bad"] ["bad"]).
Proof. reflexivity. Qed.

Lemma turn_time_budget_witness :
  DeepSearchAgent.chat_from echo_runner ["slow"; "exit"] (Console [] [])
  = DeepSearchAgent.chat_from echo_runner ["exit"]
      (Console [Prompt "You: "; RunnerRun "slow";
                Print DeepSearchAgent.timeout_text] ["slow"])
  ∧ MainAgent.chat_from echo_runner ["slow"; "exit"] (Console [] [])
    = MainAgent.chat_from echo_runner ["exit"]
        (Console [Prompt "You: "; RunnerRun "slow"; Print "Agent: re: slow"] ["slow"]).
Proof.
  destruct (turn_time_budget echo_runner ["exit"] "slow" (Console [] []))
    as (Hlong & _ & Hunbounded).
  split.
  - apply Hlong; reflexivity.
  - apply (Hunbounded "re: slow"); reflexivity.
Defined.

(** The claim C7 as the specification words it fails on main.py: a turn
    of 31 seconds is answered by its result, not by the time-out
    message. *)
Lemma main_py_has_no_time_budget :
  (30000 < duration (fst (echo_runner "slow" [])))%N
  ∧ MainAgent.chat_loop echo_runner ["slow"] []
    = (InputClosed,
       Console [Print "Start chatting (type 'exit' to quit):";
                Prompt "You: "; RunnerRun "slow"; Print "Agent: re: slow";
                Prompt "You: "] ["slow"]).
Proof. split; reflexivity. Qed.

Lemma exit_ends_loop_witness :
  fst (MainAgent.chat_from echo_runner ["exit"; "hi"] (Console [] [])) = Exited
  ∧ ∃ c1, DeepSearchAgent.chat_from echo_runner ["hi"; "exit"] (Console [] [])
          = DeepSearchAgent.chat_from echo_runner ["exit"] c1
          ∧ runner_inputs (events c1) = ["hi"].
Proof.
  split.
  - destruct (exit_ends_loop echo_runner ["hi"] "exit" (Console [] [])) as (Hexit & _).
    apply Hexit. reflexivity.
  - destruct (exit_ends_loop echo_runner ["exit"] "hi" (Console [] [])) as (_ & Hturn).
    destruct (Hturn eq_refl) as ((c1 & Hc1 & Hin) & _).
    exists c1. split; [exact Hc1|exact Hin].
Defined.

(** The claim C9 as the specification words it fails on the code: EXIT
    is another line than exit, and no turn is processed for it. *)
Lemma upper_case_exit_is_no_turn :
  "EXIT" ≠ "exit"
  ∧ DeepSearchAgent.chat_loop echo_runner ["EXIT"; "hi"] []
    = (Exited,
       Console [Print "Start chatting (type 'exit' to quit):";
                Prompt "You: "; Print "Goodbye!"; ClearSession] [])
  ∧ turns (events (snd (DeepSearchAgent.chat_loop echo_runner ["EXIT"; "hi"] []))) = 0.
Proof. split; [discriminate|split; reflexivity]. Qed.

(** In main.py the exit branch calls [clear_session] without awaiting it:
    the session keeps its items. *)
Lemma main_py_exit_keeps_session :
  store (snd (MainAgent.chat_loop echo_runner ["hi"; "exit"] [])) = ["hi"]
  ∧ store (snd (NewAgent.chat_loop echo_runner ["hi"; "exit"] [])) = []
  ∧ store (snd (DeepSearchAgent.chat_loop echo_runner ["hi"; "exit"] [])) = [].
Proof. repeat split. Qed.

Lemma exit_test_ignores_case_witness :
  DeepSearchAgent.chat_from echo_runner ["EXIT"; "hi"] (Console [] ["old"])
  = (Exited, Console [Prompt "You: "; Print "Goodbye!"; ClearSession] []).
Proof.
  apply (exit_test_ignores_case echo_runner ["hi"] "EXIT" (Console [] ["old"])).
  reflexivity.
Defined.

End ChatLoop.

(** ** The search tools: time, unserialisable responses, one-shot tools *)

Module ToolTime.
Import DeepSearchAgent Observe Measure.







End ToolTime.

(** ** Start-up: the environment the programs read and leave *)

Module Environment.
Import Observe Measure.

(** X9.  main.py starts exactly when the OpenAI key is set (to any
    string) and the Gemini and Tavily keys are set to strings that are
    not empty.  With the OpenAI key absent it stops with a TypeError
    before the key check is reached, whatever the other keys are.  When
    it starts, BASE_URL is read from the environment (and may be absent)
    and the environment is left as [load_dotenv] made it. *)
Theorem main_py_starts_iff (dotenv env : gmap string string) :
  let loaded := load_dotenv dotenv env in
  ((∃ cfg, MainAgent.startup dotenv env = inl cfg)
   ↔ is_Some (loaded !! "OPENAI_API_KEY")
     ∧ usable loaded "GEMINI_API_KEY" ∧ usable loaded "TAVILY_API_KEY")
  ∧ (loaded !! "OPENAI_API_KEY" = None →
     MainAgent.startup dotenv env = inr (TypeError "str expected, not NoneType"))
  ∧ (∀ cfg, MainAgent.startup dotenv env = inl cfg →
            MainAgent.URL_ cfg = loaded !! "BASE_URL"
            ∧ MainAgent.environ cfg = loaded
            ∧ loaded !! "GEMINI_API_KEY" = Some (MainAgent.GEMINI cfg)
            ∧ loaded !! "TAVILY_API_KEY" = Some (MainAgent.TAVILY cfg)).
Proof.
  cbv zeta. rewrite Startup.main_startup_cases. cbv zeta.
  generalize (load_dotenv dotenv env). intros loaded.
  destruct (loaded !! "OPENAI_API_KEY") as [v|] eqn:Hopenai.
  - destruct (truthy (loaded !! "GEMINI_API_KEY")) eqn:Hg;
      [destruct (truthy (loaded !! "TAVILY_API_KEY")) eqn:Ht|]; cbn [andb].
    + apply Startup.truthy_usable in Hg as Hg'. apply Startup.truthy_usable in Ht as Ht'.
      split; [split; eauto|]. split; [discriminate|].
      intros cfg [= <-]. cbn.
      destruct Hg' as (g & Hg' & _), Ht' as (t & Ht' & _). rewrite Hg', Ht'.
      repeat split. now apply insert_id.
    + split; [|split; [discriminate|intros cfg; discriminate]].
      split; [intros [cfg Hcfg]; discriminate|].
      intros (_ & _ & Hu). apply Startup.truthy_usable in Hu. congruence.
    + split; [|split; [discriminate|intros cfg; discriminate]].
      split; [intros [cfg Hcfg]; discriminate|].
      intros (_ & Hu & _). apply Startup.truthy_usable in Hu. congruence.
  - split; [|split; [reflexivity|intros cfg; discriminate]].
    split; [intros [cfg Hcfg]; discriminate|].
    intros ([v Hv] & _). discriminate.
Qed.

Lemma main_py_starts_iff_witness :
  (∃ cfg, MainAgent.startup dotenv_file all_keys = inl cfg)
  ∧ MainAgent.startup ∅ both_keys = inr (TypeError "str expected, not NoneType").
Proof.
  destruct (main_py_starts_iff dotenv_file all_keys) as ([_ Hstart] & _).
  destruct (main_py_starts_iff ∅ both_keys) as (_ & Hstop & _).
  split.
  - apply Hstart. split; [eexists; reflexivity|].
    split; eexists; (split; [reflexivity|discriminate]).
  - apply Hstop. reflexivity.
Defined.

(** X10.  What a successful start of DeepSearchAgent.py (and of
    newAgent.py) leaves behind: OPENAI_API_KEY is always set, to its
    former value or to the empty string; every other variable is as
    [load_dotenv] made it, where a variable of the process environment
    wins over the [.env] file and the file supplies the ones that are
    not set; the two keys the program keeps are not empty. *)
Theorem deep_startup_environment (dotenv env : gmap string string)
    (cfg : DeepSearchAgent.config) :
  DeepSearchAgent.startup dotenv env = inl cfg →
  DeepSearchAgent.environ cfg !! "OPENAI_API_KEY"
  = Some (default "" (load_dotenv dotenv env !! "OPENAI_API_KEY"))
  ∧ (∀ k, k ≠ "OPENAI_API_KEY" →
          DeepSearchAgent.environ cfg !! k = load_dotenv dotenv env !! k)
  ∧ (∀ k v, env !! k = Some v → load_dotenv dotenv env !! k = Some v)
  ∧ (∀ k, env !! k = None → load_dotenv dotenv env !! k = dotenv !! k)
  ∧ DeepSearchAgent.GEMINI_API_KEY cfg ≠ ""
  ∧ DeepSearchAgent.TAVILY_API_KEY cfg ≠ ""
  ∧ NewAgent.startup dotenv env = inl cfg.
Proof.
  intros Hstart.
  assert (Hnew : NewAgent.startup dotenv env = inl cfg) by exact Hstart.
  rewrite Startup.deep_startup_cases in Hstart. cbv zeta in Hstart.
  destruct (truthy (load_dotenv dotenv env !! "GEMINI_API_KEY")) eqn:Hg;
    [|discriminate].
  destruct (truthy (load_dotenv dotenv env !! "TAVILY_API_KEY")) eqn:Ht;
    [|discriminate].
  cbn [andb] in Hstart. injection Hstart as <-.
  apply Startup.truthy_usable in Hg as (g & Hg & Hgne).
  apply Startup.truthy_usable in Ht as (t & Ht & Htne).
  repeat match goal with |- _ ∧ _ => split end; [..|exact Hnew]; cbn.
  - now rewrite lookup_insert.
  - intros k Hk. now rewrite lookup_insert_ne.
  - intros k v Hk. unfold load_dotenv. now apply lookup_union_Some_l.
  - intros k Hk. unfold load_dotenv. now apply lookup_union_r.
  - now rewrite Hg.
  - now rewrite Ht.
Qed.

Lemma deep_startup_environment_witness :
  ∃ cfg, DeepSearchAgent.startup dotenv_file both_keys = inl cfg
         ∧ DeepSearchAgent.environ cfg !! "OPENAI_API_KEY" = Some ""
         ∧ DeepSearchAgent.environ cfg !! "GEMINI_API_KEY" = Some "AIza-1"
         ∧ DeepSearchAgent.environ cfg !! "BASE_URL" = Some "https://example.org/v1/".
Proof.
  destruct (DeepSearchAgent.startup dotenv_file both_keys) as [cfg|e] eqn:Hstart;
    [|vm_compute in Hstart; discriminate].
  exists cfg. split; [reflexivity|].
  destruct (deep_startup_environment dotenv_file both_keys cfg Hstart)
    as (Hopenai & Hrest & Henv & Hfile & _).
  split; [rewrite Hopenai; reflexivity|].
  split.
  - rewrite Hrest by discriminate. apply Henv. reflexivity.
  - rewrite Hrest by discriminate. rewrite Hfile by reflexivity. reflexivity.
Defined.

(** X11.  main.py is the stricter of the programs at start-up: whenever
    it starts, DeepSearchAgent.py and newAgent.py start on the same
    [.env] file and environment, with the same two keys and the same
    environment afterwards. *)
Theorem main_py_start_implies_deep_start (dotenv env : gmap string string)
    (cfg : MainAgent.config) :
  MainAgent.startup dotenv env = inl cfg →
  ∃ cfg', DeepSearchAgent.startup dotenv env = inl cfg'
          ∧ NewAgent.startup dotenv env = inl cfg'
          ∧ DeepSearchAgent.GEMINI_API_KEY cfg' = MainAgent.GEMINI cfg
          ∧ DeepSearchAgent.TAVILY_API_KEY cfg' = MainAgent.TAVILY cfg
          ∧ DeepSearchAgent.environ cfg' = MainAgent.environ cfg.
Proof.
  unfold NewAgent.startup.
  rewrite Startup.main_startup_cases, Startup.deep_startup_cases. cbv zeta.
  generalize (load_dotenv dotenv env). intros loaded.
  destruct (loaded !! "OPENAI_API_KEY") as [v|]; [|discriminate].
  destruct (truthy (loaded !! "GEMINI_API_KEY") && truthy (loaded !! "TAVILY_API_KEY"));
    [|discriminate].
  intros [= <-]. eexists. repeat split.
Qed.

Lemma main_py_start_implies_deep_start_witness :
  ∃ cfg', DeepSearchAgent.startup dotenv_file all_keys = inl cfg'
          ∧ DeepSearchAgent.GEMINI_API_KEY cfg' = "AIza-1".
Proof.
  destruct (MainAgent.startup dotenv_file all_keys) as [cfg|e] eqn:Hstart;
    [|vm_compute in Hstart; discriminate].
  destruct (main_py_start_implies_deep_start dotenv_file all_keys cfg Hstart)
    as (cfg' & Hdeep & _ & Hkey & _).
  exists cfg'. split; [exact Hdeep|].
  rewrite Hkey. vm_compute in Hstart. injection Hstart as <-. reflexivity.
Defined.

End Environment.

(** ** The chat loops compared, and the session they leave *)

Module Sessions.
Import Observe Measure.

Lemma before_exit_cons u stdin :
  exits u = false → before_exit (u :: stdin) = u :: before_exit stdin.
Proof. intros Hu. cbn. now rewrite Hu. Qed.

Lemma deep_turn_store run u c :
  store (DeepSearchAgent.turn run u c) = snd (run u (store c)).
Proof. now destruct (ChatLoop.deep_turn_prints run u c) as (line & -> & _). Qed.

(** X12.  As long as every turn is answered (the run returns, within
    30 seconds, on the session the turns before it left), the loop of
    DeepSearchAgent.py does what the loop of newAgent.py does: same
    prompts, same runner calls, same printed lines, same session, same
    ending.  The handlers and the budget only show on a turn that fails
    or takes too long. *)
Theorem deep_agrees_with_new (run : runner) (stdin : list string) (c : console) :
  all_answered run stdin (store c) →
  DeepSearchAgent.chat_from run stdin c = NewAgent.chat_from run stdin c.
Proof.
  revert c. induction stdin as [|u stdin IH]; intros c Hall; [reflexivity|].
  cbn [all_answered] in Hall. destruct (exits u) eqn:Hu.
  - now rewrite ChatLoop.deep_exit, ChatLoop.new_exit.
  - rewrite ChatLoop.deep_turn, ChatLoop.new_turn by exact Hu.
    destruct Hall as ((Hshort & out & Hout) & Hrest).
    rewrite Hout.
    destruct (ChatLoop.deep_turn_prints run u (log c [Prompt "You: "]))
      as (line & -> & _ & Hline).
    unfold log in *. cbn [store events] in *.
    unfold wait_for in Hline. apply N.ltb_ge in Hshort.
    rewrite Hshort, Hout in Hline. subst line.
    rewrite <- app_assoc. cbn [app].
    apply IH. exact Hrest.
Qed.

Lemma deep_agrees_with_new_witness :
  DeepSearchAgent.chat_from moody_runner ["hi"; "Exit"; "bad"] (Console [] [])
  = NewAgent.chat_from moody_runner ["hi"; "Exit"; "bad"] (Console [] []).
Proof.
  apply (deep_agrees_with_new moody_runner ["hi"; "Exit"; "bad"] (Console [] [])).
  split; [|exact I].
  split; [discriminate|]. eexists. reflexivity.
Defined.

(** X13.  main.py and newAgent.py run the same loop up to the exit
    branch: on every input they end the same way and print the same
    lines; they differ only when the loop ends by exit, where newAgent.py
    clears the session and main.py, which does not await the call, leaves
    it as the turns made it. *)
Theorem main_py_differs_at_exit (run : runner) (stdin : list string) (c : console) :
  fst (MainAgent.chat_from run stdin c) = fst (NewAgent.chat_from run stdin c)
  ∧ events (snd (NewAgent.chat_from run stdin c))
    = events (snd (MainAgent.chat_from run stdin c))
      ++ match fst (MainAgent.chat_from run stdin c) with
         | Exited => [ClearSession]
         | _ => []
         end
  ∧ store (snd (NewAgent.chat_from run stdin c))
    = match fst (MainAgent.chat_from run stdin c) with
      | Exited => []
      | _ => store (snd (MainAgent.chat_from run stdin c))
      end.
Proof.
  revert c. induction stdin as [|u stdin IH]; intros c.
  - cbn. now rewrite app_nil_r.
  - destruct (exits u) eqn:Hu.
    + rewrite ChatLoop.main_exit, ChatLoop.new_exit by exact Hu.
      cbn [fst snd events store]. now rewrite <- app_assoc.
    + rewrite ChatLoop.main_turn, ChatLoop.new_turn by exact Hu.
      destruct (outcome (fst (run u (store c)))) as [out|e]; [apply IH|].
      cbn. now rewrite app_nil_r.
Qed.

(** X14.  Once a loop has ended by exit or by an exception, what
    follows on the input is never read: more lines after that point
    change neither the ending, nor what is printed, nor the session. *)
Theorem nothing_read_after_the_end (run : runner) (stdin more : list string)
    (c : console) :
  (fst (DeepSearchAgent.chat_from run stdin c) ≠ InputClosed →
   DeepSearchAgent.chat_from run (stdin ++ more) c
   = DeepSearchAgent.chat_from run stdin c)
  ∧ (fst (NewAgent.chat_from run stdin c) ≠ InputClosed →
     NewAgent.chat_from run (stdin ++ more) c = NewAgent.chat_from run stdin c)
  ∧ (fst (MainAgent.chat_from run stdin c) ≠ InputClosed →
     MainAgent.chat_from run (stdin ++ more) c = MainAgent.chat_from run stdin c).
Proof.
  revert c. induction stdin as [|u stdin IH]; intros c.
  - cbn. repeat split; intros Hend; now destruct Hend.
  - rewrite <- app_comm_cons. destruct (exits u) eqn:Hu.
    + rewrite !ChatLoop.deep_exit, !ChatLoop.new_exit, !ChatLoop.main_exit
        by exact Hu.
      now repeat split.
    + rewrite !ChatLoop.deep_turn, !ChatLoop.new_turn, !ChatLoop.main_turn
        by exact Hu.
      split; [apply IH|].
      destruct (outcome (fst (run u (store c)))) as [out|e]; [apply IH|].
      now split.
Qed.

Lemma nothing_read_after_the_end_witness :
  DeepSearchAgent.chat_from echo_runner (["hi"; "EXIT"] ++ ["slow"; "bad"])
    (Console [] [])
  = DeepSearchAgent.chat_from echo_runner ["hi"; "EXIT"] (Console [] [])
  ∧ MainAgent.chat_from echo_runner (["bad"] ++ ["hi"; "exit"]) (Console [] [])
    = MainAgent.chat_from echo_runner ["bad"] (Console [] []).
Proof.
  split.
  - apply (nothing_read_after_the_end echo_runner ["hi"; "EXIT"] ["slow"; "bad"]
             (Console [] [])).
    discriminate.
  - apply (nothing_read_after_the_end echo_runner ["bad"] ["hi"; "exit"]
             (Console [] [])).
    discriminate.
Defined.

(** X15.  The session after the loop.  In DeepSearchAgent.py it is
    empty when the loop ended by exit, and otherwise what the turns left
    one after the other, the turns that failed or timed out included.
    In main.py it is what the turns before the exit line left, also
    after exit. *)
Theorem session_after_loop (run : runner) (stdin : list string) (c : console) :
  store (snd (DeepSearchAgent.chat_from run stdin c))
  = (if existsb exits stdin then [] else session_after run stdin (store c))
  ∧ (fst (MainAgent.chat_from run stdin c) = Exited →
     store (snd (MainAgent.chat_from run stdin c))
     = session_after run (before_exit stdin) (store c)).
Proof.
  revert c. induction stdin as [|u stdin IH]; intros c.
  - cbn. split; [reflexivity|discriminate].
  - cbn [existsb]. destruct (exits u) eqn:Hu.
    + rewrite ChatLoop.deep_exit, ChatLoop.main_exit by exact Hu.
      cbn [before_exit]. rewrite Hu. now split.
    + rewrite ChatLoop.deep_turn, ChatLoop.main_turn by exact Hu.
      rewrite before_exit_cons by exact Hu. cbn [orb].
      split.
      * destruct (IH (DeepSearchAgent.turn run u (log c [Prompt "You: "])))
          as [-> _].
        now rewrite deep_turn_store.
      * destruct (outcome (fst (run u (store c)))) as [out|e]; [|discriminate].
        intros Hend. now apply IH in Hend.
Qed.

Lemma session_after_loop_witness :
  store (snd (MainAgent.chat_from echo_runner ["hi"; "exit"; "more"] (Console [] ["old"])))
  = ["old"; "hi"].
Proof.
  apply (session_after_loop echo_runner ["hi"; "exit"; "more"] (Console [] ["old"])).
  reflexivity.
Defined.

(** X16.  In DeepSearchAgent.py a [TimeoutError] raised by the run
    itself is answered like an exceeded budget, however short the turn
    was: the loop prints the fixed time-out message, not the error
    message, and goes on. *)
Theorem raised_timeout_reads_as_time_out (run : runner) (u : string)
    (stdin : list string) (c : console) :
  exits u = false →
  outcome (fst (run u (store c))) = inr TimeoutError →
  DeepSearchAgent.chat_from run (u :: stdin) c
  = DeepSearchAgent.chat_from run stdin
      (Console (events c ++ [Prompt "You: "; RunnerRun u;
                             Print DeepSearchAgent.timeout_text])
               (snd (run u (store c)))).
Proof.
  intros Hu Hraise. rewrite ChatLoop.deep_turn by exact Hu.
  destruct (ChatLoop.deep_turn_prints run u (log c [Prompt "You: "]))
    as (line & -> & _ & Hline).
  unfold log in *. cbn [store events] in *.
  unfold wait_for in Hline. rewrite Hraise in Hline.
  destruct (30000 <? duration (fst (run u (store c))))%N; subst line;
    now rewrite <- app_assoc.
Qed.

Lemma raised_timeout_reads_as_time_out_witness :
  DeepSearchAgent.chat_from timing_out_runner ["hi"; "exit"] (Console [] [])
  = DeepSearchAgent.chat_from timing_out_runner ["exit"]
      (Console [Prompt "You: "; RunnerRun "hi"; Print DeepSearchAgent.timeout_text]
               ["hi"]).
Proof.
  apply (raised_timeout_reads_as_time_out timing_out_runner "hi" ["exit"]
           (Console [] [])); reflexivity.
Defined.

(** X17.  Every line read before the first exit line is handed to the
    runner as it was typed, once and in order.  DeepSearchAgent.py hands
    over all of them; main.py and newAgent.py hand over the same lines as
    each other, a prefix of them, and all of them unless a turn
    raised. *)
Theorem runner_sees_each_line_once (run : runner) (stdin : list string)
    (c : console) :
  runner_inputs (events (snd (DeepSearchAgent.chat_from run stdin c)))
  = runner_inputs (events c) ++ before_exit stdin
  ∧ ∃ lines,
      runner_inputs (events (snd (MainAgent.chat_from run stdin c)))
      = runner_inputs (events c) ++ lines
      ∧ runner_inputs (events (snd (NewAgent.chat_from run stdin c)))
        = runner_inputs (events c) ++ lines
      ∧ lines `prefix_of` before_exit stdin
      ∧ ((∀ e, fst (MainAgent.chat_from run stdin c) ≠ Uncaught e) →
         lines = before_exit stdin).
Proof.
  split; [apply ChatLoop.deep_chat_from_observed|].
  revert c. induction stdin as [|u stdin IH]; intros c.
  - exists []. cbn. rewrite ChatLoop.runner_inputs_app. cbn. now repeat split.
  - destruct (exits u) eqn:Hu.
    + exists []. rewrite ChatLoop.main_exit, ChatLoop.new_exit by exact Hu.
      cbn [snd events before_exit]. rewrite Hu, !ChatLoop.runner_inputs_app.
      cbn. now repeat split.
    + rewrite ChatLoop.main_turn, ChatLoop.new_turn by exact Hu.
      rewrite before_exit_cons by exact Hu.
      destruct (outcome (fst (run u (store c)))) as [out|e].
      * destruct (IH (Console (events c ++ [Prompt "You: "; RunnerRun u;
                                            Print ("Agent: " +:+ out)])
                              (snd (run u (store c)))))
          as (lines & Hmain & Hnew & Hpre & Hall).
        exists (u :: lines). rewrite Hmain, Hnew.
        cbn [events]. rewrite ChatLoop.runner_inputs_app. cbn.
        rewrite <- !app_assoc. cbn.
        repeat split; [now apply prefix_cons|].
        intros Hend. now rewrite Hall.
      * exists [u]. cbn [snd fst events].
        rewrite ChatLoop.runner_inputs_app. cbn.
        repeat split; [apply prefix_cons, prefix_nil|].
        intros Hend. now destruct (Hend e).
Qed.

Lemma runner_sees_each_line_once_witness :
  runner_inputs (events (snd (MainAgent.chat_from echo_runner ["hi"; "yo"; "exit"]
                                (Console [] []))))
  = ["hi"; "yo"].
Proof.
  destruct (runner_sees_each_line_once echo_runner ["hi"; "yo"; "exit"] (Console [] []))
    as (_ & lines & Hmain & _ & _ & Hall).
  rewrite Hmain, Hall; [reflexivity|].
  intros e. discriminate.
Defined.

End Sessions.
